(** * A shallow embedding of [src/builder.js]

    The query builder assembles the textual search syntax of the IOPOLE
    directory API.  The embedding follows the source class by class:

    - [Ops]                         the operator tokens,
    - [value]                       the JavaScript values handed to the builder,
    - [QueryNode] / [Group]         the expression tree,
    - [QueryNode_toString]          the virtual [toString] of the node classes,
    - [Builder_*]                   the methods of the fluent builder.

    JavaScript strings are modelled as [string]; the source looks at the
    double quote and the two parentheses only, each of which is one
    character in either representation.  Fields and operators are strings,
    as every caller in the repository passes them.  A method that mutates
    [this] and returns it is a function [Builder -> Builder]; a method that
    may throw returns a [completion]. *)

From Stdlib Require Import String Ascii List ZArith Bool Lia DecimalString.
Import ListNotations.
Local Open Scope string_scope.

(** ** Completions: a call either returns or throws *)

(** The two kinds of exception the program can meet: [new Error(message)],
    thrown by the base class, and the [TypeError] that the language raises
    when a template literal converts a symbol to a string (its message is
    engine-defined and not modelled). *)
Inductive exception : Type :=
| Error (message : string)
| TypeError.

Definition exception_name (e : exception) : string :=
  match e with
  | Error _ => "Error"
  | TypeError => "TypeError"
  end.

Inductive completion (A : Type) : Type :=
| Normal (a : A)
| Throw (e : exception).

Arguments Normal {A} a.
Arguments Throw {A} e.

Definition bind {A B : Type} (c : completion A) (k : A -> completion B)
  : completion B :=
  match c with
  | Normal a => k a
  | Throw e => Throw e
  end.

Notation "x <- c ;; k" := (bind c (fun x => k))
  (at level 61, c at next level, right associativity).

Section MapM.
Context {A B : Type} (f : A -> completion B).

(** [Array.prototype.map] with a callback that may throw: the elements are
    visited from left to right and the first exception aborts the loop. *)
Fixpoint mapM (l : list A) : completion (list B) :=
  match l with
  | [] => Normal []
  | a :: l' => b <- f a ;; bs <- mapM l' ;; Normal (b :: bs)
  end.
End MapM.

(** ** String primitives of the language used by the source *)

(** The double-quote character, code point 34. *)
Definition dquote_char : ascii := "034"%char.
Definition dquote : string := String dquote_char EmptyString.

(** [s.startsWith(p)] *)
Definition startsWith (p s : string) : bool := String.prefix p s.

(** [s.endsWith(p)] *)
Definition endsWith (p s : string) : bool :=
  let n := String.length s in
  let m := String.length p in
  (m <=? n)%nat && String.eqb (String.substring (n - m) m s) p.

(** [s.slice(start, end)]: a negative index counts from the end of the
    string, both indices are clamped to [0 .. length], and the result is
    empty when the interval is. *)
Definition slice (start end_ : Z) (s : string) : string :=
  let len := Z.of_nat (String.length s) in
  let from :=
    if (start <? 0)%Z then Z.max (len + start) 0 else Z.min start len in
  let to :=
    if (end_ <? 0)%Z then Z.max (len + end_) 0 else Z.min end_ len in
  String.substring (Z.to_nat from) (Z.to_nat (Z.max (to - from) 0)) s.

(** [parts.join(sep)] on an array of strings. *)
Fixpoint join (sep : string) (parts : list string) : string :=
  match parts with
  | [] => EmptyString
  | [p] => p
  | p :: rest => p ++ sep ++ join sep rest
  end.

(** ** Operator tokens *)

Module Ops.
Definition EQUALS : string := ":".
Definition STRICT_EQUALS : string := ":=".
Definition GT : string := ":>".
Definition GTE : string := ":>=".
Definition LT : string := ":<".
Definition LTE : string := ":<=".
Definition BETWEEN : string := ":[".
Definition STRICT_BETWEEN : string := ":{".

Definition AND : string := "AND".
Definition OR : string := "OR".
Definition NOT : string := "NOT".
Definition OR_NOT : string := "OR NOT".
Definition AND_NOT : string := "AND NOT".
End Ops.

(** ** Values *)

(** JavaScript numbers are IEEE doubles and their conversion to text is the
    language's [Number::toString]; the builder never inspects a number, it
    only prints it.  Both are kept abstract. *)
Class Numbers : Type := {
  number : Type;
  Number_toString : number -> string
}.

Section Embedding.
Context {NM : Numbers}.

(** The values a caller can pass where the source says [value]: the three
    kinds the builder is meant for, and [null], [undefined] and symbols,
    which nothing in the source rejects.  Objects, functions and big
    integers, which the source does not reject either and which the
    language converts by running their own [toString], are not modelled. *)
Inductive value : Type :=
| VString (s : string)
| VNumber (n : number)
| VBoolean (b : bool)
| VNull
| VUndefined
| VSymbol (description : string).

(** [typeof v] *)
Definition typeof (v : value) : string :=
  match v with
  | VString _ => "string"
  | VNumber _ => "number"
  | VBoolean _ => "boolean"
  | VNull => "object"
  | VUndefined => "undefined"
  | VSymbol _ => "symbol"
  end.

(** The conversion [ToString] that a template literal applies to each
    substitution: a symbol cannot be converted and raises a [TypeError]. *)
Definition ToString (v : value) : completion string :=
  match v with
  | VString s => Normal s
  | VNumber n => Normal (Number_toString n)
  | VBoolean true => Normal "true"
  | VBoolean false => Normal "false"
  | VNull => Normal "null"
  | VUndefined => Normal "undefined"
  | VSymbol _ => Throw TypeError
  end.

(** ** The expression tree *)

(** The class hierarchy: [QueryNode] is the base class, extended by
    [Condition], [BetweenCondition] and [Group].  A group holds its
    children in the array [nodes]. *)
Inductive QueryNode : Type :=
| BaseNode
| ConditionNode (field operator : string) (v : value)
| BetweenNode (field operator : string) (fromValue toValue : value)
| GroupNode (g : Group)
with Group : Type :=
| Build_Group (logicOperator : string) (nodes : list QueryNode).

Definition logicOperator (g : Group) : string :=
  match g with Build_Group op _ => op end.

Definition nodes (g : Group) : list QueryNode :=
  match g with Build_Group _ ns => ns end.

(** [Condition.formatValue] *)
Definition Condition_formatValue (v : value) : value :=
  match v with
  | VString s =>
      if startsWith dquote s then v
      else VString (dquote ++ s ++ dquote)
  | _ => v
  end.

(** [BetweenCondition.formatValue], a second copy of the same helper. *)
Definition BetweenCondition_formatValue (v : value) : value :=
  match v with
  | VString s =>
      if startsWith dquote s then v
      else VString (dquote ++ s ++ dquote)
  | _ => v
  end.

(** [new Group(logicOperator)] *)
Definition new_Group (logicOperator : string) : Group :=
  Build_Group logicOperator [].

(** [Group.add]: [this.nodes.push(node)] *)
Definition Group_add (node : QueryNode) (this : Group) : Group :=
  Build_Group (logicOperator this) (nodes this ++ [node]).

(** [QueryNode.toString], [Condition.toString],
    [BetweenCondition.toString] and [Group.toString], dispatched on the
    class of the receiver. *)
Fixpoint QueryNode_toString (n : QueryNode) : completion string :=
  match n with
  | BaseNode => Throw (Error "Method not implemented")
  | ConditionNode field operator v =>
      t <- ToString (Condition_formatValue v) ;;
      Normal (field ++ operator ++ t)
  | BetweenNode field operator fromValue toValue =>
      let endOperator :=
        if String.eqb operator Ops.STRICT_BETWEEN then "}" else "]" in
      f <- ToString (BetweenCondition_formatValue fromValue) ;;
      t <- ToString (BetweenCondition_formatValue toValue) ;;
      Normal (field ++ operator ++ f ++ " TO " ++ t ++ endOperator)
  | GroupNode g => Group_toString g
  end
with Group_toString (g : Group) : completion string :=
  match g with
  | Build_Group logicOperator nodes =>
      if (List.length nodes =? 0)%nat then Normal EmptyString
      else
        parts <- mapM QueryNode_toString nodes ;;
        let joined := join (" " ++ logicOperator ++ " ") parts in
        Normal (if (1 <? List.length nodes)%nat
                then "(" ++ joined ++ ")"
                else joined)
  end.


(** ** The builder *)

(** A builder owns one root group. *)
Record Builder : Type := Build_Builder { root : Group }.

(** [new Builder()] *)
Definition new_Builder : Builder :=
  {| root := new_Group Ops.AND |}.

(** [Builder.where]: adds a generic condition and returns [this]. *)
Definition Builder_where (field operator : string) (v : value)
  (this : Builder) : Builder :=
  {| root := Group_add (ConditionNode field operator v) (root this) |}.

(** [Builder.is]: strict match, [:=]. *)
Definition Builder_is (field : string) (v : value) (this : Builder)
  : Builder :=
  Builder_where field Ops.STRICT_EQUALS v this.

(** [Builder.matches]: [:=] for a number or a boolean, [:] otherwise. *)
Definition Builder_matches (field : string) (v : value) (this : Builder)
  : Builder :=
  if String.eqb (typeof v) "number" || String.eqb (typeof v) "boolean"
  then Builder_is field v this
  else Builder_where field Ops.EQUALS v this.

(** [Builder.between]: included range, [:[ ... ]]. *)
Definition Builder_between (field : string) (fromValue toValue : value)
  (this : Builder) : Builder :=
  {| root :=
       Group_add (BetweenNode field Ops.BETWEEN fromValue toValue)
         (root this) |}.

(** [Builder.strictBetween]: excluded range, [:{ ... }]. *)
Definition Builder_strictBetween (field : string)
  (fromValue toValue : value) (this : Builder) : Builder :=
  {| root :=
       Group_add (BetweenNode field Ops.STRICT_BETWEEN fromValue toValue)
         (root this) |}.

(** [Builder.group].  The callback receives a new builder whose root has
    been replaced by a group of the requested logic; what it leaves in that
    builder's [root] is added to the current group.  A callback is modelled
    by its effect on the builder it receives: it returns, its result is
    ignored by the source, and it touches no other builder and keeps no
    reference to the one it was given. *)
Definition Builder_group (logic : string) (callback : Builder -> Builder)
  (this : Builder) : Builder :=
  let subBuilder := new_Builder in
  let subBuilder := {| root := new_Group logic |} in
  let subBuilder := callback subBuilder in
  {| root := Group_add (GroupNode (root subBuilder)) (root this) |}.

(** [Builder.and], [Builder.andNot], [Builder.or], [Builder.orNot] *)
Definition Builder_and (callback : Builder -> Builder) (this : Builder)
  : Builder := Builder_group Ops.AND callback this.

Definition Builder_andNot (callback : Builder -> Builder) (this : Builder)
  : Builder := Builder_group Ops.AND_NOT callback this.

Definition Builder_or (callback : Builder -> Builder) (this : Builder)
  : Builder := Builder_group Ops.OR callback this.

Definition Builder_orNot (callback : Builder -> Builder) (this : Builder)
  : Builder := Builder_group Ops.OR_NOT callback this.

(** [Builder.build].  The method assigns nothing but its local [str]; the
    builder it returns beside the result is the state it leaves behind. *)
Definition Builder_build (this : Builder) : completion string * Builder :=
  (str <- Group_toString (root this) ;;
   let str :=
     if startsWith "(" str && endsWith ")" str then slice 1 (-1) str
     else str in
   Normal str,
   this).

(** ** Sequences of calls *)

(** The group obtained from [this] by the calls [this.add(c)] for the
    children [cs], in that order. *)
Definition Group_add_all (cs : list QueryNode) (this : Group) : Group :=
  fold_left (fun g c => Group_add c g) cs this.

(** [n] successive calls of [build()] on the same builder: the results in
    call order and the state left by the last call. *)
Fixpoint Builder_build_times (n : nat) (this : Builder)
  : list (completion string) * Builder :=
  match n with
  | O => ([], this)
  | S n' =>
      let (r, this') := Builder_build this in
      let (rs, this'') := Builder_build_times n' this' in
      (r :: rs, this'')
  end.

(** The kinds of value the builder is documented for. *)
Definition supported (v : value) : bool :=
  String.eqb (typeof v) "string" || String.eqb (typeof v) "number"
  || String.eqb (typeof v) "boolean".

(** The trees the builder is documented for: conditions and ranges on
    strings, numbers and booleans, and groups of such trees. *)
Fixpoint QueryNode_documented (n : QueryNode) : bool :=
  match n with
  | BaseNode => false
  | ConditionNode _ _ v => supported v
  | BetweenNode _ _ fromValue toValue =>
      supported fromValue && supported toValue
  | GroupNode (Build_Group _ ns) => forallb QueryNode_documented ns
  end.

(** ** Chains of calls *)

(** What a caller, or a callback, does to the builder it holds when it
    only calls the chaining methods on it: each constructor is one call,
    and [ok] says which values are passed.  [and], [andNot], [or] and
    [orNot] are calls of [group] with a fixed token. *)
Inductive chain (ok : value -> bool) : (Builder -> Builder) -> Prop :=
| chain_done : chain ok (fun this => this)
| chain_where (c : Builder -> Builder) (field operator : string)
    (v : value) :
    chain ok c -> ok v = true ->
    chain ok (fun this => Builder_where field operator v (c this))
| chain_matches (c : Builder -> Builder) (field : string) (v : value) :
    chain ok c -> ok v = true ->
    chain ok (fun this => Builder_matches field v (c this))
| chain_is (c : Builder -> Builder) (field : string) (v : value) :
    chain ok c -> ok v = true ->
    chain ok (fun this => Builder_is field v (c this))
| chain_between (c : Builder -> Builder) (field : string)
    (fromValue toValue : value) :
    chain ok c -> ok fromValue = true -> ok toValue = true ->
    chain ok (fun this => Builder_between field fromValue toValue (c this))
| chain_strictBetween (c : Builder -> Builder) (field : string)
    (fromValue toValue : value) :
    chain ok c -> ok fromValue = true -> ok toValue = true ->
    chain ok
      (fun this => Builder_strictBetween field fromValue toValue (c this))
| chain_group (c : Builder -> Builder) (logic : string)
    (callback : Builder -> Builder) :
    chain ok c -> chain ok callback ->
    chain ok (fun this => Builder_group logic callback (c this)).

(** Any value may be passed. *)
Definition any_value (v : value) : bool := true.



End Embedding.

Arguments value : clear implicits.
Arguments value {NM}.

(** Method chaining: [b .> m] is the call [b.m(...)]. *)
Notation "b .> m" := (m b) (at level 50, left associativity, only parsing).

(** A model of the numbers with an integral value below [10^21] in absolute
    value, which the language prints in decimal without an exponent. *)
Definition IntegerNumbers : Numbers :=
  {| number := Z;
     Number_toString := fun z => NilZero.string_of_int (Z.to_int z) |}.

(** * Properties *)

(** ** Facts about the string primitives *)

Lemma string_app_nil_r (s : string) : s ++ EmptyString = s.
Proof. induction s as [|c s IH]; simpl; [reflexivity | now rewrite IH]. Qed.

Lemma string_app_assoc (a b c : string) : (a ++ b) ++ c = a ++ b ++ c.
Proof. induction a as [|x a IH]; simpl; [reflexivity | now rewrite IH]. Qed.

Lemma string_length_app (a b : string) :
  String.length (a ++ b) = String.length a + String.length b.
Proof. induction a as [|x a IH]; simpl; [reflexivity | now rewrite IH]. Qed.

Lemma substring_prefix_app (a b : string) :
  String.substring 0 (String.length a) (a ++ b) = a.
Proof.
  induction a as [|x a IH]; simpl.
  - destruct b; reflexivity.
  - now rewrite IH.
Qed.

Lemma substring_skip_app (a b : string) (m : nat) :
  String.substring (String.length a) m (a ++ b) = String.substring 0 m b.
Proof. induction a as [|x a IH]; simpl; [reflexivity | exact IH]. Qed.

Lemma startsWith_cons (c : ascii) (s : string) :
  startsWith (String c EmptyString) (String c s) = true.
Proof.
  unfold startsWith; simpl.
  destruct (ascii_dec c c) as [_|ne]; [destruct s; reflexivity | now elim ne].
Qed.

(** [s.startsWith(p)] for a one-character [p] looks at the first character
    of [s] only. *)
Lemma startsWith_char_iff (c : ascii) (s : string) :
  startsWith (String c EmptyString) s = true <->
  exists rest, s = String c rest.
Proof.
  split.
  - unfold startsWith. destruct s as [|d s]; simpl; [discriminate|].
    destruct (ascii_dec c d) as [->|ne]; [eauto | discriminate].
  - intros [rest ->]. apply startsWith_cons.
Qed.

Lemma endsWith_app_char (c : ascii) (s : string) :
  endsWith (String c EmptyString) (s ++ String c EmptyString) = true.
Proof.
  unfold endsWith. rewrite string_length_app. simpl String.length.
  replace (String.length s + 1 - 1) with (String.length s) by lia.
  rewrite substring_skip_app. simpl.
  rewrite Ascii.eqb_refl.
  destruct (String.length s + 1) eqn:E; [lia | reflexivity].
Qed.

(** [str.slice(1, -1)] removes the first and the last character. *)
Lemma slice_strip (c d : ascii) (s : string) :
  slice 1 (-1) (String c (s ++ String d EmptyString)) = s.
Proof.
  unfold slice. cbn [String.length]. rewrite string_length_app.
  cbn [String.length Z.ltb Z.compare].
  set (n := String.length s).
  replace (Z.min 1 (Z.of_nat (S (n + 1)))) with 1%Z by lia.
  replace (Z.to_nat
             (Z.max (Z.max (Z.of_nat (S (n + 1)) + -1) 0 - 1) 0)) with n
    by lia.
  change (Z.to_nat 1) with 1. cbn [String.substring].
  apply substring_prefix_app.
Qed.

(** [join] is the standard concatenation with a separator. *)
Lemma join_concat (sep : string) (parts : list string) :
  join sep parts = String.concat sep parts.
Proof.
  induction parts as [|p rest IH]; [reflexivity|].
  destruct rest as [|p' rest]; [reflexivity|].
  change (p ++ sep ++ join sep (p' :: rest) =
          p ++ sep ++ String.concat sep (p' :: rest)).
  now rewrite IH.
Qed.

Section Properties.
Context {NM : Numbers}.

(** ** Facts about the tree and its rendering *)

Lemma mapM_Forall2 {A B : Type} (f : A -> completion B) (l : list A)
  (r : list B) :
  Forall2 (fun a b => f a = Normal b) l r -> mapM f l = Normal r.
Proof.
  induction 1 as [|a b l r Hab _ IH]; simpl; [reflexivity|].
  now rewrite Hab, IH.
Qed.

(** The first child that throws aborts the loop with its exception. *)
Lemma mapM_throw {A B : Type} (f : A -> completion B) (l1 l2 : list A)
  (r1 : list B) (a : A) (e : exception) :
  Forall2 (fun a b => f a = Normal b) l1 r1 ->
  f a = Throw e ->
  mapM f (l1 ++ a :: l2) = Throw e.
Proof.
  induction 1 as [|x y l r Hxy _ IH]; intros Ha; simpl.
  - now rewrite Ha.
  - now rewrite Hxy, IH.
Qed.

Lemma Group_toString_eq (g : Group) :
  Group_toString g =
  if (List.length (nodes g) =? 0)%nat then Normal EmptyString
  else
    parts <- mapM QueryNode_toString (nodes g) ;;
    let joined := join (" " ++ logicOperator g ++ " ") parts in
    Normal (if (1 <? List.length (nodes g))%nat
            then "(" ++ joined ++ ")"
            else joined).
Proof. destruct g; reflexivity. Qed.

Lemma Group_add_all_spec (cs : list QueryNode) (g : Group) :
  Group_add_all cs g = Build_Group (logicOperator g) (nodes g ++ cs).
Proof.
  revert g. induction cs as [|c cs IH]; intros [op ns].
  - cbn. now rewrite app_nil_r.
  - change (Group_add_all (c :: cs) (Build_Group op ns))
      with (Group_add_all cs (Group_add c (Build_Group op ns))).
    rewrite IH. cbn. now rewrite <- app_assoc.
Qed.

(** Rendering a group whose children render to [texts]. *)
Lemma Group_toString_texts (op : string) (cs : list QueryNode)
  (texts : list string) :
  Forall2 (fun c t => QueryNode_toString c = Normal t) cs texts ->
  Group_toString (Build_Group op cs) =
  Normal
    match texts with
    | [] => EmptyString
    | [t] => t
    | _ => "(" ++ join (" " ++ op ++ " ") texts ++ ")"
    end.
Proof.
  intros H. rewrite Group_toString_eq. cbn [nodes logicOperator].
  pose proof (Forall2_length H) as Hlen.
  rewrite (mapM_Forall2 _ _ _ H).
  destruct H as [|c t cs texts Hc H]; [reflexivity|].
  destruct H as [|c' t' cs texts Hc' H]; reflexivity.
Qed.

(** [build()] passes on an exception raised by the rendering of the root. *)
Lemma Builder_build_throw (b : Builder) (e : exception) :
  Group_toString (root b) = Throw e -> fst (Builder_build b) = Throw e.
Proof. intros H. unfold Builder_build. simpl. now rewrite H. Qed.

(** [build()] on a root that renders to a parenthesised text. *)
Lemma Builder_build_strip (b : Builder) (s : string) :
  Group_toString (root b) = Normal ("(" ++ s ++ ")") ->
  fst (Builder_build b) = Normal s.
Proof.
  intros H. unfold Builder_build. cbn [fst]. rewrite H. cbn [bind].
  change ("(" ++ s ++ ")") with (String "(" (s ++ ")")).
  rewrite startsWith_cons.
  change (String "(" (s ++ ")")) with ("(" ++ s ++ ")").
  rewrite <- string_app_assoc, endsWith_app_char, string_app_assoc.
  cbn [andb]. change ("(" ++ s ++ ")") with (String "(" (s ++ ")")).
  now rewrite slice_strip.
Qed.

(** Every value but a symbol has a text once formatted. *)
Lemma ToString_Condition_formatValue (v : value) :
  typeof v <> "symbol" ->
  exists t, ToString (Condition_formatValue v) = Normal t.
Proof.
  destruct v as [s|n|[|]| | |d]; intros H; cbn; eauto.
  - destruct (startsWith dquote s); cbn; eauto.
  - now elim H.
Qed.

Lemma ToString_BetweenCondition_formatValue (v : value) :
  typeof v <> "symbol" ->
  exists t, ToString (BetweenCondition_formatValue v) = Normal t.
Proof.
  destruct v as [s|n|[|]| | |d]; intros H; cbn; eauto.
  - destruct (startsWith dquote s); cbn; eauto.
  - now elim H.
Qed.

Lemma supported_not_symbol (v : value) :
  supported v = true -> typeof v <> "symbol".
Proof. destruct v; cbn; intros H; discriminate. Qed.

(** A documented tree always renders: [toString] returns a text. *)
Lemma QueryNode_documented_renders :
  forall n : QueryNode,
    QueryNode_documented n = true ->
    exists t, QueryNode_toString n = Normal t.
Proof.
  fix IH 1. intros [|field operator v|field operator a b|[op ns]] H.
  - discriminate H.
  - cbn in H. apply supported_not_symbol in H.
    destruct (ToString_Condition_formatValue v H) as [t Ht].
    cbn. rewrite Ht. cbn. eauto.
  - cbn in H. apply andb_true_iff in H. destruct H as [Ha Hb].
    apply supported_not_symbol in Ha, Hb.
    destruct (ToString_BetweenCondition_formatValue a Ha) as [f Hf].
    destruct (ToString_BetweenCondition_formatValue b Hb) as [t Ht].
    cbn. rewrite Hf, Ht. cbn. eauto.
  - change (forallb QueryNode_documented ns = true) in H.
    change (exists t, Group_toString (Build_Group op ns) = Normal t).
    rewrite Group_toString_eq. cbn [nodes logicOperator].
    destruct (List.length ns =? 0)%nat; [eauto|].
    assert (Hm : exists r, mapM QueryNode_toString ns = Normal r).
    { clear op. induction ns as [|c ns IHns]; cbn; [eauto|].
      cbn in H. apply andb_true_iff in H. destruct H as [Hc Hns].
      destruct (IH c Hc) as [t Ht]. destruct (IHns Hns) as [r Hr].
      rewrite Ht, Hr. cbn. eauto. }
    destruct Hm as [r Hr]. rewrite Hr. cbn. eauto.
Qed.

(** On a builder whose tree is documented, [build()] returns a text. *)
Lemma Builder_build_returns (b : Builder) :
  QueryNode_documented (GroupNode (root b)) = true ->
  exists s, fst (Builder_build b) = Normal s.
Proof.
  intros H. destruct (QueryNode_documented_renders _ H) as [t Ht].
  change (Group_toString (root b) = Normal t) in Ht.
  unfold Builder_build. cbn [fst]. rewrite Ht. cbn [bind]. eauto.
Qed.

(** ** The scenarios of the test suite *)

(** C1.  On a new builder, [matches('buyer.siren','*123456789')], then [or]
    with a callback adding two [matches] on the corporate names, then the
    two [where] on [createdDate], then [build()] return the query of the
    requirements: the root conditions joined with AND, the OR group in its
    parentheses, and the parentheses around the whole query removed.  The
    root itself renders to that text inside one pair of parentheses. *)
Theorem build_requirements_scenario :
  let b :=
    new_Builder
    .> Builder_matches "buyer.siren" (VString "*123456789")
    .> Builder_or (fun qb =>
         qb
         .> Builder_matches "buyer.corporateName" (VString "iopole")
         .> Builder_matches "seller.corporateName" (VString "myOtherCompany"))
    .> Builder_where "createdDate" Ops.GTE (VString "2024-01-01")
    .> Builder_where "createdDate" Ops.LTE (VString "2025-01-01") in
  let expected :=
    "buyer.siren:" ++ dquote ++ "*123456789" ++ dquote
    ++ " AND (buyer.corporateName:" ++ dquote ++ "iopole" ++ dquote
    ++ " OR seller.corporateName:" ++ dquote ++ "myOtherCompany" ++ dquote
    ++ ") AND createdDate:>=" ++ dquote ++ "2024-01-01" ++ dquote
    ++ " AND createdDate:<=" ++ dquote ++ "2025-01-01" ++ dquote in
  fst (Builder_build b) = Normal expected /\
  Group_toString (root b) = Normal ("(" ++ expected ++ ")").
Proof. split; reflexivity. Qed.

(** C2, as the code has it.  On a new builder on which only [or] is called,
    with a callback adding [matches('role','admin')] and
    [matches('role','editor')], the root has the OR group as its only child
    and renders to the parenthesised text, and [build()] removes that pair
    of parentheses: it returns [role:"admin" OR role:"editor"]. *)
Theorem build_single_or_group :
  let b :=
    new_Builder
    .> Builder_or (fun qb =>
         qb
         .> Builder_matches "role" (VString "admin")
         .> Builder_matches "role" (VString "editor")) in
  let inner :=
    "role:" ++ dquote ++ "admin" ++ dquote
    ++ " OR role:" ++ dquote ++ "editor" ++ dquote in
  Group_toString (root b) = Normal ("(" ++ inner ++ ")") /\
  fst (Builder_build b) = Normal inner.
Proof. split; reflexivity. Qed.

(** C9.  A builder to which nothing was added, the new top-level builder as
    well as a new sub-builder of any logic, builds the empty string; no
    exception is raised. *)
Theorem build_nothing_added :
  fst (Builder_build new_Builder) = Normal EmptyString /\
  forall logic : string,
    fst (Builder_build {| root := new_Group logic |}) = Normal EmptyString.
Proof. split; [|intros logic]; reflexivity. Qed.

(** ** Rendering a group *)

(** C3.  Take a new group of any logic operator and append the children
    [cs] one after the other, and let [texts] be the texts the children
    render to, in the same order.  The group then holds exactly [cs], in the
    order of the calls, and renders to the empty string when there is no
    child, to the text of the child, without parentheses, when there is one,
    and to the texts joined with [" <logicOperator> "], in the order of the
    calls, between one pair of parentheses when there are two or more. *)
Theorem Group_toString_children (op : string) (cs : list QueryNode)
  (texts : list string) :
  Forall2 (fun c t => QueryNode_toString c = Normal t) cs texts ->
  let g := Group_add_all cs (new_Group op) in
  nodes g = cs /\
  logicOperator g = op /\
  (texts = [] -> Group_toString g = Normal EmptyString) /\
  (forall t, texts = [t] -> Group_toString g = Normal t) /\
  (2 <= List.length texts ->
   Group_toString g = Normal ("(" ++ join (" " ++ op ++ " ") texts ++ ")")).
Proof.
  intros H g. subst g. rewrite Group_add_all_spec. cbn [new_Group nodes
    logicOperator app].
  pose proof (Group_toString_texts op cs texts H) as R.
  repeat split.
  - intros ->. exact R.
  - intros t ->. exact R.
  - intros Hlen. rewrite R.
    destruct texts as [|t [|t' texts]]; cbn in Hlen; try lia. reflexivity.
Qed.

(** A group with one child renders as the child does, whatever the child
    and the logic operator are, also when the child throws. *)
Lemma Group_toString_single (op : string) (c : QueryNode) :
  Group_toString (Group_add c (new_Group op)) = QueryNode_toString c.
Proof.
  rewrite Group_toString_eq. cbn.
  destruct (QueryNode_toString c); reflexivity.
Qed.

(** ** The value formatter *)

(** C4.  The two copies of the value formatter agree.  A string that starts
    with a double quote is returned unchanged; any other string is returned
    between one pair of double quotes; a number or a boolean is returned as
    it is, and the template literal that embeds the result prints it as the
    language prints a number or a boolean, without quotes. *)
Theorem formatValue_policy :
  (forall v, BetweenCondition_formatValue v = Condition_formatValue v) /\
  (forall s,
     startsWith dquote s = true ->
     Condition_formatValue (VString s) = VString s) /\
  (forall s,
     startsWith dquote s = false ->
     Condition_formatValue (VString s) = VString (dquote ++ s ++ dquote)) /\
  (forall n,
     Condition_formatValue (VNumber n) = VNumber n /\
     ToString (Condition_formatValue (VNumber n))
     = Normal (Number_toString n)) /\
  (forall b,
     Condition_formatValue (VBoolean b) = VBoolean b /\
     ToString (Condition_formatValue (VBoolean b))
     = Normal (if b then "true" else "false")).
Proof.
  repeat split.
  - intros s H. unfold Condition_formatValue. now rewrite H.
  - intros s H. unfold Condition_formatValue. now rewrite H.
  - destruct b; reflexivity.
Qed.

(** ** Dispatch of [matches] *)

(** C5.  [matches(f, v)] leaves the builder in the state [is(f, v)] leaves
    it in when [v] is a number or a boolean, and in the state
    [where(f, EQUALS, v)] leaves it in when [v] is a string, so [build()]
    gives the same result; [is(f, v)] appends the condition with the
    operator [:=] whatever [v] is. *)
Theorem matches_dispatch (f : string) (b : Builder) :
  (forall n,
     Builder_matches f (VNumber n) b = Builder_is f (VNumber n) b /\
     Builder_build (Builder_matches f (VNumber n) b)
     = Builder_build (Builder_is f (VNumber n) b)) /\
  (forall x,
     Builder_matches f (VBoolean x) b = Builder_is f (VBoolean x) b /\
     Builder_build (Builder_matches f (VBoolean x) b)
     = Builder_build (Builder_is f (VBoolean x) b)) /\
  (forall s,
     Builder_matches f (VString s) b
     = Builder_where f Ops.EQUALS (VString s) b /\
     Builder_build (Builder_matches f (VString s) b)
     = Builder_build (Builder_where f Ops.EQUALS (VString s) b)) /\
  (forall v,
     logicOperator (root (Builder_is f v b)) = logicOperator (root b) /\
     nodes (root (Builder_is f v b))
     = (nodes (root b) ++ [ConditionNode f ":=" v])%list).
Proof.
  repeat split.
Qed.

(** ** Ranges *)

(** C6.  [between(field, from, to)] appends to the root a range condition
    that renders as [field:[<from> TO <to>]] and
    [strictBetween(field, from, to)] one that renders as
    [field:{<from> TO <to>}], where [<from>] and [<to>] are the texts of the
    formatted bounds: the closing bracket is the one that matches the
    bracket of the operator.  This holds for all bounds but symbols, which
    have no text. *)
Theorem between_brackets (b : Builder) (field : string)
  (fromValue toValue : value) :
  typeof fromValue <> "symbol" ->
  typeof toValue <> "symbol" ->
  exists f t : string,
    ToString (BetweenCondition_formatValue fromValue) = Normal f /\
    ToString (BetweenCondition_formatValue toValue) = Normal t /\
    (exists n,
       nodes (root (Builder_between field fromValue toValue b))
       = (nodes (root b) ++ [n])%list /\
       logicOperator (root (Builder_between field fromValue toValue b))
       = logicOperator (root b) /\
       QueryNode_toString n
       = Normal (field ++ ":[" ++ f ++ " TO " ++ t ++ "]")) /\
    (exists n,
       nodes (root (Builder_strictBetween field fromValue toValue b))
       = (nodes (root b) ++ [n])%list /\
       logicOperator
         (root (Builder_strictBetween field fromValue toValue b))
       = logicOperator (root b) /\
       QueryNode_toString n
       = Normal (field ++ ":{" ++ f ++ " TO " ++ t ++ "}")).
Proof.
  intros Hfrom Hto.
  destruct (ToString_BetweenCondition_formatValue fromValue Hfrom)
    as [f Hf].
  destruct (ToString_BetweenCondition_formatValue toValue Hto) as [t Ht].
  exists f, t. split; [exact Hf|]. split; [exact Ht|]. split.
  - exists (BetweenNode field Ops.BETWEEN fromValue toValue).
    repeat split. cbn. now rewrite Hf, Ht.
  - exists (BetweenNode field Ops.STRICT_BETWEEN fromValue toValue).
    repeat split. cbn. now rewrite Hf, Ht.
Qed.

(** ** Building twice *)

(** C7.  [build()] leaves the builder, its root group and every node below
    it, as they were; a second call returns what the first returned, and so
    do any number of successive calls. *)
Theorem build_repeatable (b : Builder) :
  snd (Builder_build b) = b /\
  fst (Builder_build (snd (Builder_build b))) = fst (Builder_build b) /\
  forall n : nat,
    Builder_build_times n b = (repeat (fst (Builder_build b)) n, b).
Proof.
  repeat split.
  induction n as [|n IH]; [reflexivity|].
  cbn [Builder_build_times repeat].
  destruct (Builder_build b) as [r b'] eqn:E.
  assert (b' = b) as -> by (now inversion E).
  rewrite IH. cbn [fst]. reflexivity.
Qed.

(** ** Values outside string, number and boolean *)

(** C8, as the code has it.  For a value [v] that is neither a string, nor
    a number, nor a boolean, the value formatter raises nothing and returns
    [v] unchanged.  The condition then renders with the conversion that the
    language applies to [v] itself; an exception of that conversion is the
    exception of the rendering, and [build()] passes it on to its caller and
    leaves the builder as it was. *)
Theorem formatValue_unsupported (v : value) :
  supported v = false ->
  Condition_formatValue v = v /\
  BetweenCondition_formatValue v = v /\
  forall field operator : string,
    QueryNode_toString (ConditionNode field operator v)
    = (t <- ToString v ;; Normal (field ++ operator ++ t)) /\
    forall (b : Builder) (texts : list string) (e : exception),
      Forall2 (fun c t => QueryNode_toString c = Normal t)
        (nodes (root b)) texts ->
      ToString v = Throw e ->
      Builder_build (Builder_where field operator v b)
      = (Throw e, Builder_where field operator v b).
Proof.
  intros Hv.
  assert (Hc : Condition_formatValue v = v)
    by (destruct v; try reflexivity; discriminate Hv).
  assert (Hb : BetweenCondition_formatValue v = v)
    by (destruct v; try reflexivity; discriminate Hv).
  split; [exact Hc|]. split; [exact Hb|].
  intros field operator.
  assert (R : QueryNode_toString (ConditionNode field operator v)
              = (t <- ToString v ;; Normal (field ++ operator ++ t)))
    by (cbn; now rewrite Hc).
  split; [exact R|].
  intros b texts e H T.
  assert (G : Group_toString (root (Builder_where field operator v b))
              = Throw e).
  { unfold Builder_where. cbn [root]. unfold Group_add.
    rewrite Group_toString_eq. cbn [nodes logicOperator].
    rewrite (mapM_throw QueryNode_toString _ [] texts _ e H)
      by (rewrite R, T; reflexivity).
    rewrite length_app. cbn [List.length].
    replace (List.length (nodes (root b)) + 1 =? 0)%nat with false
      by (symmetry; apply Nat.eqb_neq; lia).
    reflexivity. }
  unfold Builder_build. now rewrite G.
Qed.

(** ** Empty sub-groups *)

(** C10, as the code has it.  Let the root of a builder hold one child that
    renders to [tc], and call [group(logic, callback)] with a callback that
    leaves the sub-builder without children.  The empty group is appended
    as a second child, renders to the empty string and takes part in the
    join of its parent: [build()] returns [tc] followed by the separator of
    the parent, [" <logicOperator of the root> "], and not by the [logic]
    given to [group].  On a top-level builder that separator is [" AND "]. *)
Theorem build_empty_subgroup (b : Builder) (c : QueryNode) (tc : string)
  (logic : string) (callback : Builder -> Builder) :
  nodes (root b) = [c] ->
  QueryNode_toString c = Normal tc ->
  nodes (root (callback {| root := new_Group logic |})) = [] ->
  let sub := root (callback {| root := new_Group logic |}) in
  let b' := Builder_group logic callback b in
  nodes (root b') = [c; GroupNode sub] /\
  QueryNode_toString (GroupNode sub) = Normal EmptyString /\
  fst (Builder_build b')
  = Normal (tc ++ " " ++ logicOperator (root b) ++ " ") /\
  (logicOperator (root b) = Ops.AND ->
   fst (Builder_build b') = Normal (tc ++ " AND ")).
Proof.
  intros Hb Hc Hsub sub b'.
  assert (Hs : QueryNode_toString (GroupNode sub) = Normal EmptyString).
  { change (Group_toString sub = Normal EmptyString).
    rewrite Group_toString_eq. subst sub. now rewrite Hsub. }
  assert (Hn : nodes (root b') = [c; GroupNode sub]).
  { subst b'. unfold Builder_group. cbn [root]. unfold Group_add.
    cbn [nodes]. now rewrite Hb. }
  assert (Hr : fst (Builder_build b')
               = Normal (tc ++ " " ++ logicOperator (root b) ++ " ")).
  { apply Builder_build_strip.
    assert (Hop : logicOperator (root b') = logicOperator (root b))
      by reflexivity.
    destruct (root b') as [op ns]. cbn in Hn, Hop. subst ns op.
    rewrite (Group_toString_texts _ _ [tc; EmptyString]).
    - cbn [join]. rewrite string_app_nil_r.
      now rewrite !string_app_assoc.
    - repeat constructor; assumption. }
  repeat split; try assumption.
  intros Hand. rewrite Hr, Hand. reflexivity.
Qed.

End Properties.

(** * Further properties of the builder *)

Section Further.
Context {NM : Numbers}.

(** ** Helpers *)

Lemma join_snoc (sep : string) (texts : list string) (t : string) :
  texts <> [] ->
  join sep (texts ++ [t]) = join sep texts ++ sep ++ t.
Proof.
  induction texts as [|p rest IH]; intros H; [now elim H|].
  destruct rest as [|p' rest]; [reflexivity|].
  change (p ++ sep ++ join sep ((p' :: rest) ++ [t])
          = (p ++ sep ++ join sep (p' :: rest)) ++ sep ++ t).
  rewrite IH by discriminate.
  now rewrite !string_app_assoc.
Qed.

Lemma mapM_replace {A B : Type} (f : A -> completion B) (l1 l2 : list A)
  (x y : A) :
  f x = f y -> mapM f (l1 ++ x :: l2) = mapM f (l1 ++ y :: l2).
Proof.
  intros H. induction l1 as [|a l1 IH]; cbn; [now rewrite H|].
  now rewrite IH.
Qed.

Lemma Forall2_snoc {A B : Type} (R : A -> B -> Prop) (l : list A)
  (r : list B) (a : A) (b : B) :
  Forall2 R l r -> R a b -> Forall2 R (l ++ [a]) (r ++ [b]).
Proof. intros H Hab. apply Forall2_app; [exact H | now constructor]. Qed.

(** [build()] on a root with two children or more. *)
Lemma Builder_build_join (b : Builder) (texts : list string) :
  Forall2 (fun c t => QueryNode_toString c = Normal t)
    (nodes (root b)) texts ->
  2 <= List.length texts ->
  fst (Builder_build b)
  = Normal (join (" " ++ logicOperator (root b) ++ " ") texts).
Proof.
  intros H Hlen. apply Builder_build_strip.
  destruct (root b) as [op ns]. cbn [nodes logicOperator] in *.
  rewrite (Group_toString_texts op ns texts H).
  destruct texts as [|t [|t' texts]]; cbn in Hlen; try lia. reflexivity.
Qed.

(** [matches] is [where] with an operator that the value alone decides. *)
Lemma Builder_matches_where (field : string) (v : value) :
  exists operator : string,
    forall b : Builder,
      Builder_matches field v b = Builder_where field operator v b.
Proof.
  destruct v;
    [exists Ops.EQUALS | exists Ops.STRICT_EQUALS | exists Ops.STRICT_EQUALS
    | exists Ops.EQUALS | exists Ops.EQUALS | exists Ops.EQUALS];
    reflexivity.
Qed.

(** The children a chain appends do not depend on the builder it runs
    on; the logic operator of the root stays. *)
Lemma chain_root (ok : value -> bool) (c : Builder -> Builder) :
  chain ok c ->
  exists added : list QueryNode,
    forall b : Builder,
      root (c b)
      = Build_Group (logicOperator (root b)) (nodes (root b) ++ added).
Proof.
  induction 1 as [|c field operator v _ [added IH] _
                  |c field v _ [added IH] _
                  |c field v _ [added IH] _
                  |c field a z _ [added IH] _ _
                  |c field a z _ [added IH] _ _
                  |c logic callback _ [added IH] _ [sub IHsub]].
  - exists []. intros b. rewrite app_nil_r. now destruct (root b).
  - exists (added ++ [ConditionNode field operator v])%list. intros b.
    cbn. rewrite IH. cbn. now rewrite app_assoc.
  - destruct (Builder_matches_where field v) as [op Hop].
    exists (added ++ [ConditionNode field op v])%list. intros b.
    rewrite Hop. cbn. rewrite IH. cbn. now rewrite app_assoc.
  - exists (added ++ [ConditionNode field Ops.STRICT_EQUALS v])%list.
    intros b. cbn. rewrite IH. cbn. now rewrite app_assoc.
  - exists (added ++ [BetweenNode field Ops.BETWEEN a z])%list.
    intros b. cbn. rewrite IH. cbn. now rewrite app_assoc.
  - exists (added ++ [BetweenNode field Ops.STRICT_BETWEEN a z])%list.
    intros b. cbn. rewrite IH. cbn. now rewrite app_assoc.
  - exists (added ++ [GroupNode (Build_Group logic sub)])%list.
    intros b. unfold Builder_group. cbn [root]. rewrite IH, IHsub.
    cbn. now rewrite app_assoc.
Qed.

Lemma Group_toString_replace (op : string) (l1 l2 : list QueryNode)
  (x y : QueryNode) :
  QueryNode_toString x = QueryNode_toString y ->
  Group_toString (Build_Group op (l1 ++ x :: l2))
  = Group_toString (Build_Group op (l1 ++ y :: l2)).
Proof.
  intros H. rewrite !Group_toString_eq. cbn [nodes logicOperator].
  rewrite (mapM_replace QueryNode_toString l1 l2 x y H).
  rewrite !length_app. reflexivity.
Qed.

Lemma QueryNode_documented_add (n : QueryNode) (g : Group) :
  QueryNode_documented (GroupNode (Group_add n g))
  = QueryNode_documented (GroupNode g) && QueryNode_documented n.
Proof.
  destruct g as [op ns]. cbn. rewrite forallb_app. cbn.
  now rewrite andb_true_r.
Qed.


(** A chain on documented values keeps the tree documented. *)
Lemma chain_documented (c : Builder -> Builder) :
  chain supported c ->
  forall b : Builder,
    QueryNode_documented (GroupNode (root b)) = true ->
    QueryNode_documented (GroupNode (root (c b))) = true.
Proof.
  induction 1 as [|c field operator v _ IH Hv
                  |c field v _ IH Hv
                  |c field v _ IH Hv
                  |c field a z _ IH Ha Hz
                  |c field a z _ IH Ha Hz
                  |c logic callback _ IH _ IHsub]; intros b Hb.
  - exact Hb.
  - cbn [Builder_where root]. rewrite QueryNode_documented_add, IH by exact Hb.
    exact Hv.
  - destruct (Builder_matches_where field v) as [op ->].
    cbn [Builder_where root]. rewrite QueryNode_documented_add, IH by exact Hb.
    exact Hv.
  - unfold Builder_is. cbn [Builder_where root].
    rewrite QueryNode_documented_add, IH by exact Hb. exact Hv.
  - cbn [Builder_between root].
    rewrite QueryNode_documented_add, IH by exact Hb. cbn. now rewrite Ha, Hz.
  - cbn [Builder_strictBetween root].
    rewrite QueryNode_documented_add, IH by exact Hb. cbn. now rewrite Ha, Hz.
  - unfold Builder_group. cbn [root].
    rewrite QueryNode_documented_add, IH by exact Hb.
    apply IHsub. reflexivity.
Qed.




(** ** Exceptions of the rendering *)

(** X1.  When the children before [c] render and [c] throws, the group
    throws the exception of [c], whatever follows [c]; [build()] on a
    builder with that root raises the same exception and leaves the builder
    as it was. *)
Theorem Group_toString_first_throw (op : string) (l1 l2 : list QueryNode)
  (texts : list string) (c : QueryNode) (e : exception) :
  Forall2 (fun n t => QueryNode_toString n = Normal t) l1 texts ->
  QueryNode_toString c = Throw e ->
  Group_toString (Build_Group op (l1 ++ c :: l2)) = Throw e /\
  Builder_build {| root := Build_Group op (l1 ++ c :: l2) |}
  = (Throw e, {| root := Build_Group op (l1 ++ c :: l2) |}).
Proof.
  intros H T.
  assert (G : Group_toString (Build_Group op (l1 ++ c :: l2)) = Throw e).
  { rewrite Group_toString_eq. cbn [nodes logicOperator].
    rewrite (mapM_throw QueryNode_toString l1 l2 texts c e H T).
    rewrite length_app. cbn [List.length].
    replace (List.length l1 + S (List.length l2) =? 0)%nat with false
      by (symmetry; apply Nat.eqb_neq; lia).
    reflexivity. }
  split; [exact G|].
  unfold Builder_build. cbn [root]. now rewrite G.
Qed.


(** X10.  A chain of calls that passes only strings, numbers and booleans,
    on a new builder or on one whose tree is documented, is followed by a
    [build()] that returns a text. *)
Theorem chain_build_returns (c : Builder -> Builder) :
  chain supported c ->
  (exists s, fst (Builder_build (c new_Builder)) = Normal s) /\
  forall b : Builder,
    QueryNode_documented (GroupNode (root b)) = true ->
    exists s, fst (Builder_build (c b)) = Normal s.
Proof.
  intros Hc.
  assert (R : forall b, QueryNode_documented (GroupNode (root b)) = true ->
                        exists s, fst (Builder_build (c b)) = Normal s).
  { intros b Hb. apply Builder_build_returns.
    now apply chain_documented. }
  split; [apply R; reflexivity | exact R].
Qed.

(** ** The value formatter, again *)

(** X2.  Formatting is idempotent.  A formatted string starts with a double
    quote, so that formatting it again returns it; the kind of the value
    does not change. *)
Theorem formatValue_idempotent :
  (forall v,
     Condition_formatValue (Condition_formatValue v)
     = Condition_formatValue v) /\
  (forall v,
     BetweenCondition_formatValue (BetweenCondition_formatValue v)
     = BetweenCondition_formatValue v) /\
  (forall v, typeof (Condition_formatValue v) = typeof v) /\
  (forall s,
     exists s', Condition_formatValue (VString s) = VString s' /\
                startsWith dquote s' = true).
Proof.
  assert (Q : forall s, startsWith dquote (dquote ++ s ++ dquote) = true)
    by (intros s; apply startsWith_cons).
  split; [|split; [|split]].
  - intros [s|n|x| | |d]; try reflexivity.
    unfold Condition_formatValue.
    destruct (startsWith dquote s) eqn:E; [now rewrite E | now rewrite Q].
  - intros [s|n|x| | |d]; try reflexivity.
    unfold BetweenCondition_formatValue.
    destruct (startsWith dquote s) eqn:E; [now rewrite E | now rewrite Q].
  - intros [s|n|x| | |d]; try reflexivity.
    unfold Condition_formatValue. now destruct (startsWith dquote s).
  - intros s. unfold Condition_formatValue.
    destruct (startsWith dquote s) eqn:E; eauto.
Qed.

(** ** What [build()] returns *)

(** X3.  When the root holds two children or more, which render to
    [texts], [build()] returns these texts joined with the logic operator of
    the root, [" AND "] for a top-level builder, and nothing around them:
    the parentheses of the root are removed, those of the nested groups are
    kept within the texts. *)
Theorem build_joins_root_children (b : Builder) (texts : list string) :
  Forall2 (fun c t => QueryNode_toString c = Normal t)
    (nodes (root b)) texts ->
  2 <= List.length texts ->
  fst (Builder_build b)
  = Normal (join (" " ++ logicOperator (root b) ++ " ") texts) /\
  (logicOperator (root b) = Ops.AND ->
   fst (Builder_build b) = Normal (join " AND " texts)).
Proof.
  intros H Hlen. pose proof (Builder_build_join b texts H Hlen) as R.
  split; [exact R|]. intros Hop. now rewrite R, Hop.
Qed.

(** X4.  Adding one more child to a root that already holds children
    extends the query at its end: with [texts] the texts of the children
    already there and [t] the text of the new child, [build()] returns the
    join of [texts], then the separator, then [t].  [where] is the case of a
    new condition. *)
Theorem build_after_add (b : Builder) (texts : list string) :
  Forall2 (fun c t => QueryNode_toString c = Normal t)
    (nodes (root b)) texts ->
  texts <> [] ->
  let sep := " " ++ logicOperator (root b) ++ " " in
  (forall (n : QueryNode) (t : string),
     QueryNode_toString n = Normal t ->
     fst (Builder_build {| root := Group_add n (root b) |})
     = Normal (join sep texts ++ sep ++ t)) /\
  (forall (field operator : string) (v : value) (t : string),
     ToString (Condition_formatValue v) = Normal t ->
     fst (Builder_build (Builder_where field operator v b))
     = Normal (join sep texts ++ sep ++ field ++ operator ++ t)).
Proof.
  intros H Hne sep.
  assert (R : forall n t,
             QueryNode_toString n = Normal t ->
             fst (Builder_build {| root := Group_add n (root b) |})
             = Normal (join sep texts ++ sep ++ t)).
  { intros n t Hn.
    rewrite (Builder_build_join _ (texts ++ [t])).
    - cbn [root]. unfold Group_add at 1. cbn [logicOperator].
      fold sep. now rewrite join_snoc.
    - cbn [root]. unfold Group_add. cbn [nodes].
      now apply Forall2_snoc.
    - rewrite length_app. cbn. destruct texts; [now elim Hne | cbn; lia]. }
  split; [exact R|].
  intros field operator v t Hv.
  apply (R (ConditionNode field operator v)). cbn. now rewrite Hv.
Qed.

(** X5.  A group with one child is transparent: when the callback leaves
    exactly one child [c] in the sub-builder, [group(logic, callback)] gives
    the result that adding [c] itself to the root gives, so that the logic
    of the group, [AND NOT] or [OR NOT] included, does not show. *)
Theorem group_of_one_is_transparent (b : Builder) (logic : string)
  (callback : Builder -> Builder) (c : QueryNode) :
  nodes (root (callback {| root := new_Group logic |})) = [c] ->
  fst (Builder_build (Builder_group logic callback b))
  = fst (Builder_build {| root := Group_add c (root b) |}).
Proof.
  intros H.
  unfold Builder_build, Builder_group. cbn [fst root].
  destruct (root (callback {| root := new_Group logic |})) as [op' ns].
  cbn in H. subst ns. unfold Group_add.
  destruct (root b) as [op ns]. cbn [nodes logicOperator].
  rewrite (Group_toString_replace op ns []
             (GroupNode (Build_Group op' [c])) c); [reflexivity|].
  exact (Group_toString_single op' c).
Qed.

(** X6.  When the root has no child yet and the callback leaves none in
    the sub-builder, the root holds one empty group after
    [group(logic, callback)] and [build()] returns the empty string. *)
Theorem build_only_empty_group (b : Builder) (logic : string)
  (callback : Builder -> Builder) :
  nodes (root b) = [] ->
  nodes (root (callback {| root := new_Group logic |})) = [] ->
  List.length (nodes (root (Builder_group logic callback b))) = 1 /\
  fst (Builder_build (Builder_group logic callback b)) = Normal EmptyString.
Proof.
  intros Hb Hs. unfold Builder_build, Builder_group. cbn [fst root].
  destruct (root (callback {| root := new_Group logic |})) as [op' ns'].
  destruct (root b) as [op ns]. cbn in Hb, Hs. subst ns ns'.
  split; reflexivity.
Qed.

(** X7.  When the root holds one child, which renders to [t], [build()]
    returns [t] itself unless [t] starts with an opening and ends with a
    closing parenthesis; it then returns [t] without its first and its last
    character, whether the child is a group or not. *)
Theorem build_single_child (b : Builder) (c : QueryNode) (t : string) :
  nodes (root b) = [c] ->
  QueryNode_toString c = Normal t ->
  (startsWith "(" t && endsWith ")" t = false ->
   fst (Builder_build b) = Normal t) /\
  (forall s, t = "(" ++ s ++ ")" -> fst (Builder_build b) = Normal s).
Proof.
  intros Hb Hc.
  assert (G : Group_toString (root b) = Normal t).
  { destruct (root b) as [op ns]. cbn in Hb. subst ns.
    rewrite <- Hc. exact (Group_toString_single op c). }
  split.
  - intros Hp. unfold Builder_build. cbn [fst]. rewrite G. cbn [bind].
    now rewrite Hp.
  - intros s ->. now apply Builder_build_strip.
Qed.

(** ** Chains of calls *)

(** X8.  A chain of calls only appends: the children the root had stay
    where they were, unchanged; the children the chain adds come after them
    and are those it adds to a new builder, whatever builder the chain runs
    on; and the logic operator of the root stays what it was. *)
Theorem chain_appends (ok : value -> bool) (c : Builder -> Builder) :
  chain ok c ->
  forall b : Builder,
    logicOperator (root (c b)) = logicOperator (root b) /\
    nodes (root (c b))
    = (nodes (root b) ++ nodes (root (c new_Builder)))%list.
Proof.
  intros Hc b. destruct (chain_root ok c Hc) as [added R].
  rewrite (R b), (R new_Builder). cbn. split; reflexivity.
Qed.

(** X9.  [group(logic, callback)] with a callback that is a chain of calls
    appends to the root one group whose logic operator is [logic] and whose
    children are the children the callback adds to a new builder; for
    [and], [andNot], [or] and [orNot] the operator is [AND], [AND NOT],
    [OR] and [OR NOT]. *)
Theorem group_appends_one_group (ok : value -> bool)
  (callback : Builder -> Builder) :
  chain ok callback ->
  let added := nodes (root (callback new_Builder)) in
  forall b : Builder,
    (forall logic,
       root (Builder_group logic callback b)
       = Group_add (GroupNode (Build_Group logic added)) (root b)) /\
    root (Builder_and callback b)
    = Group_add (GroupNode (Build_Group "AND" added)) (root b) /\
    root (Builder_andNot callback b)
    = Group_add (GroupNode (Build_Group "AND NOT" added)) (root b) /\
    root (Builder_or callback b)
    = Group_add (GroupNode (Build_Group "OR" added)) (root b) /\
    root (Builder_orNot callback b)
    = Group_add (GroupNode (Build_Group "OR NOT" added)) (root b).
Proof.
  intros Hc added b. destruct (chain_root ok callback Hc) as [added' R].
  assert (G : forall logic,
             root (Builder_group logic callback b)
             = Group_add (GroupNode (Build_Group logic added)) (root b)).
  { intros logic. unfold Builder_group. cbn [root]. subst added.
    rewrite !R. reflexivity. }
  split; [exact G|]. repeat split; apply G.
Qed.

End Further.

(** * Concrete runs

    The runs below use [IntegerNumbers] for the numbers. *)

#[local] Existing Instance IntegerNumbers.

(** ** The expectations of [builder.spec.js] *)

Example test_strict_integer_match :
  fst (Builder_build (NM := IntegerNumbers)
         (new_Builder .> Builder_is "count" (VNumber 10%Z)))
  = Normal "count:=10".
Proof. reflexivity. Qed.

Example test_strict_boolean_match :
  fst (Builder_build (NM := IntegerNumbers)
         (new_Builder .> Builder_is "isPublished" (VBoolean true)))
  = Normal "isPublished:=true".
Proof. reflexivity. Qed.

Example test_comparison_operator :
  fst (Builder_build (NM := IntegerNumbers)
         (new_Builder .> Builder_where "age" Ops.GTE (VNumber 18%Z)))
  = Normal "age:>=18".
Proof. reflexivity. Qed.

Example test_already_quoted :
  fst (Builder_build (NM := IntegerNumbers)
         (new_Builder
          .> Builder_matches "company"
               (VString (dquote ++ "MyCompany" ++ dquote))))
  = Normal ("company:" ++ dquote ++ "MyCompany" ++ dquote).
Proof. reflexivity. Qed.

Example test_nested_and_inside_or :
  fst (Builder_build (NM := IntegerNumbers)
         (new_Builder
          .> Builder_or (fun rootOr =>
               rootOr
               .> Builder_matches "status" (VString "active")
               .> Builder_and (fun subAnd =>
                    subAnd
                    .> Builder_where "age" Ops.GTE (VNumber 18%Z)
                    .> Builder_matches "country" (VString "FR")))))
  = Normal ("status:" ++ dquote ++ "active" ++ dquote
            ++ " OR (age:>=18 AND country:" ++ dquote ++ "FR" ++ dquote
            ++ ")").
Proof. reflexivity. Qed.

Example test_single_item_group :
  fst (Builder_build (NM := IntegerNumbers)
         (new_Builder
          .> Builder_or (fun sub => sub .> Builder_matches "id" (VNumber 1%Z))))
  = Normal "id:=1".
Proof. reflexivity. Qed.

Example test_included_range :
  fst (Builder_build (NM := IntegerNumbers)
         (new_Builder
          .> Builder_between "amount" (VNumber 10%Z) (VNumber 20%Z)))
  = Normal "amount:[10 TO 20]".
Proof. reflexivity. Qed.

Example test_excluded_range_quoted :
  fst (Builder_build (NM := IntegerNumbers)
         (new_Builder
          .> Builder_strictBetween "amount" (VString "2025-01-01")
               (VString "2025-01-31")))
  = Normal ("amount:{" ++ dquote ++ "2025-01-01" ++ dquote ++ " TO "
            ++ dquote ++ "2025-01-31" ++ dquote ++ "}").
Proof. reflexivity. Qed.

Example test_unary_expression :
  fst (Builder_build (NM := IntegerNumbers)
         (new_Builder
          .> Builder_orNot (fun qb =>
               qb
               .> Builder_matches "name" (VString "myName")
               .> Builder_and (fun subQb =>
                    subQb
                    .> Builder_matches "amount" (VNumber 100%Z)
                    .> Builder_matches "name" (VString "myOtherName")))))
  = Normal ("name:" ++ dquote ++ "myName" ++ dquote
            ++ " OR NOT (amount:=100 AND name:" ++ dquote ++ "myOtherName"
            ++ dquote ++ ")").
Proof. reflexivity. Qed.

(** ** Instances of the theorems with hypotheses *)

Lemma Group_toString_children_witness :
  Forall2 (fun c t => QueryNode_toString (NM := IntegerNumbers) c = Normal t)
    [ConditionNode "role" ":" (VString "admin");
     ConditionNode "role" ":" (VString "editor")]
    ["role:" ++ dquote ++ "admin" ++ dquote;
     "role:" ++ dquote ++ "editor" ++ dquote] /\
  Group_toString
    (Group_add_all
       [ConditionNode "role" ":" (VString "admin");
        ConditionNode "role" ":" (VString "editor")]
       (new_Group "OR"))
  = Normal ("(" ++ join " OR "
                     ["role:" ++ dquote ++ "admin" ++ dquote;
                      "role:" ++ dquote ++ "editor" ++ dquote] ++ ")").
Proof.
  assert (H : Forall2
                (fun c t =>
                   QueryNode_toString (NM := IntegerNumbers) c = Normal t)
                [ConditionNode "role" ":" (VString "admin");
                 ConditionNode "role" ":" (VString "editor")]
                ["role:" ++ dquote ++ "admin" ++ dquote;
                 "role:" ++ dquote ++ "editor" ++ dquote])
    by (repeat constructor).
  split; [exact H|].
  destruct (Group_toString_children "OR" _ _ H) as (_ & _ & _ & _ & R).
  apply R. simpl. lia.
Defined.

Lemma formatValue_policy_witness :
  startsWith dquote (dquote ++ "MyCompany" ++ dquote) = true /\
  Condition_formatValue (NM := IntegerNumbers)
    (VString (dquote ++ "MyCompany" ++ dquote))
  = VString (dquote ++ "MyCompany" ++ dquote) /\
  startsWith dquote "*123456" = false /\
  Condition_formatValue (NM := IntegerNumbers) (VString "*123456")
  = VString (dquote ++ "*123456" ++ dquote).
Proof.
  destruct (formatValue_policy (NM := IntegerNumbers))
    as (_ & Hq & Hu & _).
  split; [reflexivity|]. split; [apply Hq; reflexivity|].
  split; [reflexivity|]. apply Hu; reflexivity.
Defined.

Lemma between_brackets_witness :
  typeof (VNumber (NM := IntegerNumbers) 10%Z) <> "symbol" /\
  typeof (VNumber (NM := IntegerNumbers) 20%Z) <> "symbol" /\
  (exists n,
     nodes (root (Builder_between "amount" (VNumber 10%Z) (VNumber 20%Z)
                    new_Builder)) = [n] /\
     QueryNode_toString n = Normal "amount:[10 TO 20]") /\
  (exists n,
     nodes (root (Builder_strictBetween "amount" (VNumber 10%Z)
                    (VNumber 20%Z) new_Builder)) = [n] /\
     QueryNode_toString n = Normal "amount:{10 TO 20}").
Proof.
  assert (H10 : typeof (VNumber (NM := IntegerNumbers) 10%Z) <> "symbol")
    by discriminate.
  assert (H20 : typeof (VNumber (NM := IntegerNumbers) 20%Z) <> "symbol")
    by discriminate.
  split; [exact H10|]. split; [exact H20|].
  destruct (between_brackets (NM := IntegerNumbers) new_Builder "amount"
              (VNumber (NM := IntegerNumbers) 10%Z)
              (VNumber (NM := IntegerNumbers) 20%Z) H10 H20)
    as (f & t & Hf & Ht & (n & Hn & _ & Rn) & (m & Hm & _ & Rm)).
  cbn in Hf, Ht.
  injection Hf as <-. injection Ht as <-.
  split; [exists n | exists m]; split; assumption.
Defined.

Lemma formatValue_unsupported_witness :
  supported (NM := IntegerNumbers) VNull = false /\
  Condition_formatValue (NM := IntegerNumbers) VNull = VNull /\
  QueryNode_toString (NM := IntegerNumbers) (ConditionNode "f" ":" VNull)
  = Normal "f:null" /\
  supported (NM := IntegerNumbers) (VSymbol "s") = false /\
  fst (Builder_build (NM := IntegerNumbers)
         (new_Builder .> Builder_where "f" ":" (VSymbol "s")))
  = Throw TypeError.
Proof.
  split; [reflexivity|].
  destruct (formatValue_unsupported (NM := IntegerNumbers) VNull eq_refl)
    as (Hf & _ & Hn).
  split; [exact Hf|].
  split; [exact (proj1 (Hn "f" ":"))|].
  split; [reflexivity|].
  destruct (formatValue_unsupported (NM := IntegerNumbers) (VSymbol "s")
              eq_refl) as (_ & _ & Hs).
  exact (f_equal fst
           (proj2 (Hs "f" ":") new_Builder [] TypeError
              (Forall2_nil _) eq_refl)).
Defined.

Lemma build_empty_subgroup_witness :
  nodes (root (new_Builder (NM := IntegerNumbers)
               .> Builder_matches "status" (VString "active")))
  = [ConditionNode "status" ":" (VString "active")] /\
  QueryNode_toString (NM := IntegerNumbers)
    (ConditionNode "status" ":" (VString "active"))
  = Normal ("status:" ++ dquote ++ "active" ++ dquote) /\
  nodes (root ((fun qb : Builder => qb)
                 {| root := new_Group (NM := IntegerNumbers) "OR" |})) = [] /\
  fst (Builder_build
         (new_Builder
          .> Builder_matches "status" (VString "active")
          .> Builder_group "OR" (fun qb => qb)))
  = Normal (("status:" ++ dquote ++ "active" ++ dquote) ++ " AND ").
Proof.
  split; [reflexivity|]. split; [reflexivity|]. split; [reflexivity|].
  destruct (build_empty_subgroup (NM := IntegerNumbers)
              (new_Builder .> Builder_matches "status" (VString "active"))
              (ConditionNode "status" ":" (VString "active"))
              ("status:" ++ dquote ++ "active" ++ dquote)
              "OR" (fun qb => qb) eq_refl eq_refl eq_refl)
    as (_ & _ & _ & R).
  apply R. reflexivity.
Defined.

(** ** Where the code departs from a stated behaviour *)

(** C2 as stated fails: [build()] does not return the parenthesised text
    [(role:"admin" OR role:"editor")]. *)
Lemma build_single_or_group_parenthesised_fails :
  fst (Builder_build (NM := IntegerNumbers)
         (new_Builder
          .> Builder_or (fun qb =>
               qb
               .> Builder_matches "role" (VString "admin")
               .> Builder_matches "role" (VString "editor"))))
  <> Normal ("(role:" ++ dquote ++ "admin" ++ dquote
             ++ " OR role:" ++ dquote ++ "editor" ++ dquote ++ ")").
Proof. vm_compute. discriminate. Qed.

(** C8 as stated fails: [null] is outside string, number and boolean, and
    the formatter returns it; the condition renders and [build()] returns
    [f:null], so that no exception, of any name, reaches the caller. *)
Lemma formatValue_null_raises_nothing :
  supported (NM := IntegerNumbers) VNull = false /\
  Condition_formatValue (NM := IntegerNumbers) VNull = VNull /\
  fst (Builder_build (NM := IntegerNumbers)
         (new_Builder .> Builder_where "f" ":" VNull))
  = Normal "f:null" /\
  ~ (exists e,
       fst (Builder_build (NM := IntegerNumbers)
              (new_Builder .> Builder_where "f" ":" VNull)) = Throw e /\
       exception_name e = "UnsupportedValueType").
Proof.
  repeat split. intros (e & H & _). vm_compute in H. discriminate H.
Qed.

(** C10 as stated fails for a logic other than that of the parent: after
    one condition and an empty [group('OR', ...)], [build()] returns the
    condition followed by [" AND "], not by [" OR "]. *)
Lemma build_empty_or_subgroup_separator :
  fst (Builder_build (NM := IntegerNumbers)
         (new_Builder
          .> Builder_matches "status" (VString "active")
          .> Builder_group "OR" (fun qb => qb)))
  = Normal ("status:" ++ dquote ++ "active" ++ dquote ++ " AND ") /\
  fst (Builder_build (NM := IntegerNumbers)
         (new_Builder
          .> Builder_matches "status" (VString "active")
          .> Builder_group "OR" (fun qb => qb)))
  <> Normal ("status:" ++ dquote ++ "active" ++ dquote ++ " OR ").
Proof. split; [reflexivity | vm_compute; discriminate]. Qed.

(** ** Instances of the further properties *)

Ltac chain_steps :=
  repeat first
    [ apply chain_done
    | apply chain_where
    | apply chain_matches
    | apply chain_is
    | apply chain_between
    | apply chain_strictBetween
    | apply chain_group
    | reflexivity ].

Lemma Group_toString_first_throw_witness :
  Forall2 (fun n t => QueryNode_toString (NM := IntegerNumbers) n = Normal t)
    [ConditionNode "count" ":=" (VNumber 10%Z)] ["count:=10"] /\
  QueryNode_toString (NM := IntegerNumbers) BaseNode
  = Throw (Error "Method not implemented") /\
  Group_toString
    (Build_Group "AND"
       [ConditionNode "count" ":=" (VNumber 10%Z); BaseNode;
        ConditionNode "f" ":" (VSymbol "s")])
  = Throw (Error "Method not implemented").
Proof.
  assert (H : Forall2
                (fun n t =>
                   QueryNode_toString (NM := IntegerNumbers) n = Normal t)
                [ConditionNode "count" ":=" (VNumber 10%Z)] ["count:=10"])
    by (repeat constructor).
  split; [exact H|]. split; [reflexivity|].
  exact (proj1 (Group_toString_first_throw "AND" _
                  [ConditionNode "f" ":" (VSymbol "s")] _ BaseNode _
                  H eq_refl)).
Defined.


Lemma chain_build_returns_witness :
  chain (NM := IntegerNumbers) supported
    (fun this =>
       this
       .> Builder_matches "status" (VString "active")
       .> Builder_group "OR" (fun qb =>
            qb
            .> Builder_is "count" (VNumber 10%Z)
            .> Builder_between "amount" (VNumber 10%Z) (VNumber 20%Z))) /\
  exists s,
    fst (Builder_build (NM := IntegerNumbers)
           (new_Builder
            .> Builder_matches "status" (VString "active")
            .> Builder_group "OR" (fun qb =>
                 qb
                 .> Builder_is "count" (VNumber 10%Z)
                 .> Builder_between "amount" (VNumber 10%Z)
                      (VNumber 20%Z)))) = Normal s.
Proof.
  assert (H : chain (NM := IntegerNumbers) supported
                (fun this =>
                   this
                   .> Builder_matches "status" (VString "active")
                   .> Builder_group "OR" (fun qb =>
                        qb
                        .> Builder_is "count" (VNumber 10%Z)
                        .> Builder_between "amount" (VNumber 10%Z)
                             (VNumber 20%Z))))
    by chain_steps.
  split; [exact H|].
  exact (proj1 (chain_build_returns _ H)).
Defined.

Lemma build_joins_root_children_witness :
  Forall2 (fun c t => QueryNode_toString (NM := IntegerNumbers) c = Normal t)
    (nodes (root (new_Builder
                  .> Builder_matches "firstName" (VString "John")
                  .> Builder_matches "lastName" (VString "Doe"))))
    ["firstName:" ++ dquote ++ "John" ++ dquote;
     "lastName:" ++ dquote ++ "Doe" ++ dquote] /\
  2 <= List.length
         ["firstName:" ++ dquote ++ "John" ++ dquote;
          "lastName:" ++ dquote ++ "Doe" ++ dquote] /\
  fst (Builder_build
         (new_Builder
          .> Builder_matches "firstName" (VString "John")
          .> Builder_matches "lastName" (VString "Doe")))
  = Normal (join " AND "
              ["firstName:" ++ dquote ++ "John" ++ dquote;
               "lastName:" ++ dquote ++ "Doe" ++ dquote]).
Proof.
  assert (H : Forall2
                (fun c t =>
                   QueryNode_toString (NM := IntegerNumbers) c = Normal t)
                (nodes (root (new_Builder
                              .> Builder_matches "firstName" (VString "John")
                              .> Builder_matches "lastName" (VString "Doe"))))
                ["firstName:" ++ dquote ++ "John" ++ dquote;
                 "lastName:" ++ dquote ++ "Doe" ++ dquote])
    by (repeat constructor).
  assert (L : 2 <= List.length
                     ["firstName:" ++ dquote ++ "John" ++ dquote;
                      "lastName:" ++ dquote ++ "Doe" ++ dquote])
    by (simpl; lia).
  split; [exact H|]. split; [exact L|].
  exact (proj2 (build_joins_root_children _ _ H L) eq_refl).
Defined.

Lemma build_after_add_witness :
  Forall2 (fun c t => QueryNode_toString (NM := IntegerNumbers) c = Normal t)
    (nodes (root (new_Builder .> Builder_is "count" (VNumber 10%Z))))
    ["count:=10"] /\
  ["count:=10"] <> [] /\
  ToString (Condition_formatValue (NM := IntegerNumbers) (VNumber 18%Z))
  = Normal "18" /\
  fst (Builder_build
         (new_Builder
          .> Builder_is "count" (VNumber 10%Z)
          .> Builder_where "age" ":>=" (VNumber 18%Z)))
  = Normal (join " AND " ["count:=10"] ++ " AND " ++ "age" ++ ":>=" ++ "18").
Proof.
  assert (H : Forall2
                (fun c t =>
                   QueryNode_toString (NM := IntegerNumbers) c = Normal t)
                (nodes (root (new_Builder
                              .> Builder_is "count" (VNumber 10%Z))))
                ["count:=10"])
    by (repeat constructor).
  assert (N : ["count:=10"] <> []) by discriminate.
  split; [exact H|]. split; [exact N|]. split; [reflexivity|].
  exact (proj2 (build_after_add _ _ H N) "age" ":>="
           (VNumber (NM := IntegerNumbers) 18%Z) "18" eq_refl).
Defined.

Lemma group_of_one_is_transparent_witness :
  nodes (root ((fun qb => qb .> Builder_matches "a" (VString "b"))
                 {| root := new_Group (NM := IntegerNumbers) "AND NOT" |}))
  = [ConditionNode "a" ":" (VString "b")] /\
  fst (Builder_build (NM := IntegerNumbers)
         (new_Builder
          .> Builder_matches "status" (VString "active")
          .> Builder_andNot (fun qb =>
               qb .> Builder_matches "a" (VString "b"))))
  = fst (Builder_build (NM := IntegerNumbers)
           (new_Builder
            .> Builder_matches "status" (VString "active")
            .> Builder_matches "a" (VString "b"))).
Proof.
  split; [reflexivity|].
  exact (group_of_one_is_transparent (NM := IntegerNumbers)
           (new_Builder .> Builder_matches "status" (VString "active"))
           "AND NOT"
           (fun qb => qb .> Builder_matches "a" (VString "b"))
           (ConditionNode "a" ":" (VString "b")) eq_refl).
Defined.

Lemma build_only_empty_group_witness :
  nodes (root (new_Builder (NM := IntegerNumbers))) = [] /\
  nodes (root ((fun qb : Builder => qb)
                 {| root := new_Group (NM := IntegerNumbers) "OR" |})) = [] /\
  fst (Builder_build (NM := IntegerNumbers)
         (new_Builder .> Builder_or (fun qb => qb)))
  = Normal EmptyString.
Proof.
  split; [reflexivity|]. split; [reflexivity|].
  exact (proj2 (build_only_empty_group (NM := IntegerNumbers) new_Builder
                  "OR" (fun qb => qb) eq_refl eq_refl)).
Defined.

Lemma build_single_child_witness :
  nodes (root (new_Builder (NM := IntegerNumbers)
               .> Builder_is "count" (VNumber 10%Z)))
  = [ConditionNode "count" ":=" (VNumber 10%Z)] /\
  QueryNode_toString (NM := IntegerNumbers)
    (ConditionNode "count" ":=" (VNumber 10%Z)) = Normal "count:=10" /\
  startsWith "(" "count:=10" && endsWith ")" "count:=10" = false /\
  fst (Builder_build (NM := IntegerNumbers)
         (new_Builder .> Builder_is "count" (VNumber 10%Z)))
  = Normal "count:=10" /\
  fst (Builder_build (NM := IntegerNumbers)
         (new_Builder
          .> Builder_where "(a" ":" (VString (dquote ++ "b)"))))
  = Normal ("a:" ++ dquote ++ "b").
Proof.
  split; [reflexivity|]. split; [reflexivity|]. split; [reflexivity|].
  split.
  - exact (proj1 (build_single_child (NM := IntegerNumbers)
                    (new_Builder .> Builder_is "count" (VNumber 10%Z))
                    (ConditionNode "count" ":=" (VNumber 10%Z))
                    "count:=10" eq_refl eq_refl) eq_refl).
  - exact (proj2 (build_single_child (NM := IntegerNumbers)
                    (new_Builder
                     .> Builder_where "(a" ":" (VString (dquote ++ "b)")))
                    (ConditionNode "(a" ":" (VString (dquote ++ "b)")))
                    ("(a:" ++ dquote ++ "b)") eq_refl eq_refl)
             ("a:" ++ dquote ++ "b") eq_refl).
Defined.

Lemma chain_appends_witness :
  chain (NM := IntegerNumbers) any_value
    (fun this =>
       this
       .> Builder_matches "status" (VString "active")
       .> Builder_strictBetween "amount" (VNumber 10%Z) (VNumber 20%Z)) /\
  forall b : Builder,
    logicOperator
      (root (b
             .> Builder_matches "status" (VString "active")
             .> Builder_strictBetween "amount" (VNumber 10%Z)
                  (VNumber 20%Z)))
    = logicOperator (root b) /\
    nodes
      (root (b
             .> Builder_matches "status" (VString "active")
             .> Builder_strictBetween "amount" (VNumber 10%Z)
                  (VNumber 20%Z)))
    = (nodes (root b)
       ++ [ConditionNode "status" ":" (VString "active");
           BetweenNode "amount" ":{" (VNumber 10%Z) (VNumber 20%Z)])%list.
Proof.
  assert (H : chain (NM := IntegerNumbers) any_value
                (fun this =>
                   this
                   .> Builder_matches "status" (VString "active")
                   .> Builder_strictBetween "amount" (VNumber 10%Z)
                        (VNumber 20%Z)))
    by chain_steps.
  split; [exact H|].
  exact (chain_appends _ _ H).
Defined.

Lemma group_appends_one_group_witness :
  chain (NM := IntegerNumbers) any_value
    (fun qb =>
       qb
       .> Builder_matches "role" (VString "admin")
       .> Builder_matches "role" (VString "editor")) /\
  forall b : Builder,
    root (b
          .> Builder_orNot (fun qb =>
               qb
               .> Builder_matches "role" (VString "admin")
               .> Builder_matches "role" (VString "editor")))
    = Group_add
        (GroupNode
           (Build_Group "OR NOT"
              [ConditionNode "role" ":" (VString "admin");
               ConditionNode "role" ":" (VString "editor")]))
        (root b).
Proof.
  assert (H : chain (NM := IntegerNumbers) any_value
                (fun qb =>
                   qb
                   .> Builder_matches "role" (VString "admin")
                   .> Builder_matches "role" (VString "editor")))
    by chain_steps.
  split; [exact H|].
  intros b.
  exact (proj2 (proj2 (proj2 (proj2
           (group_appends_one_group _ _ H b))))).
Defined.
